(** * add_env_to_project.py, a shallow embedding

    The script derives the path of a [.env] file below a hardcoded
    Xcode project directory, prints a banner and the two paths, asks the
    operating system whether something exists at the path and, if so,
    previews the file and prints manual instructions.

    Python [str] values are modelled as lists of Unicode code points, so
    that "the first 100 characters" means what it means in Python.  The
    calls into the Python runtime ([print], [os.path.join],
    [os.path.exists], [open], [read], the [with] statement) are modelled
    as operations of a small state-and-exception monad over a world made
    of a filesystem and a chronological log of the operations performed.

    Two runtimes are given.  In the first every operation returns or
    raises at once; it carries the properties of the output.  The second
    adds the entries on which [open] or [read] never comes back and the
    entries [stat] cannot reach; it carries termination and the exact
    account of how a run ends.  The body of the script is one and the
    same in both ([main_on]), and the two agree on plain entries. *)

From Stdlib Require Import ZArith NArith String Ascii List Lia.
From stdpp Require Import base option list gmap.
Import ListNotations.

Local Open Scope N_scope.
Local Open Scope list_scope.

(** ** Python strings *)

(** A Python [str]: a sequence of code points. *)
Abbreviation pystr := (list N).

(** An ASCII-only source literal. *)
Definition lit (s : string) : pystr :=
  map N_of_ascii (list_ascii_of_string s).

(** [s[:stop]]: the bounds are adjusted the way CPython adjusts slice
    indices (a negative stop counts from the end, then everything is
    clamped to [0, len(s)]); slicing never raises. *)
Definition adjust_stop (stop len : Z) : Z :=
  if (stop <? 0)%Z then
    let stop' := (stop + len)%Z in
    if (stop' <? 0)%Z then 0%Z else stop'
  else if (stop >=? len)%Z then len
  else stop.

Definition slice_to (stop : Z) (s : pystr) : pystr :=
  take (Z.to_nat (adjust_stop stop (Z.of_nat (length s)))) s.

(** ** [os.path] on a POSIX system *)

Module os_path.

Definition sep : pystr := lit "/".

Definition startswith (s pre : pystr) : bool :=
  bool_decide (take (length pre) s = pre).

Definition endswith (s suf : pystr) : bool :=
  bool_decide (length suf <= length s)%nat
  && bool_decide (drop (length s - length suf) s = suf).

(** One round of the loop of [posixpath.join]: an absolute component
    replaces what came before, otherwise it is appended, with a
    separator unless the path is empty or already ends with one. *)
Definition join_step (path b : pystr) : pystr :=
  if startswith b sep then b
  else if bool_decide (path = []) || endswith path sep then path ++ b
  else path ++ sep ++ b.

Definition join (a : pystr) (p : list pystr) : pystr :=
  fold_left join_step p a.

End os_path.

(** ** The world: filesystem and log *)

Inductive exn :=
| FileNotFoundError
| PermissionError
| IsADirectoryError
| UnicodeDecodeError
| OSError.

(** What [f.read()] of a text-mode file object yields: the decoded text,
    or the error raised while reading or decoding. *)
Inductive contents :=
| Text (s : pystr)
| Unreadable (e : exn).

(** What the process sees at a path (symbolic links resolved): a regular
    file, a directory, or a character device.  The flag says whether the
    process has read permission.

    Assumptions of the model: the filesystem is not changed by anyone
    else while the script runs and [print] always succeeds.  Every
    operation on these nodes returns or raises at once; entries on which
    [open] or [read] waits, and entries [stat] cannot reach, are the
    subject of the wider model further down ([entry], [w_script]). *)
Inductive node :=
| Regular (r : bool) (c : contents)
| Directory (r : bool)
| Device (r : bool) (c : contents).

Definition is_regular (n : node) : bool :=
  match n with Regular _ _ => true | _ => false end.

Definition perm_r (n : node) : bool :=
  match n with Regular r _ | Directory r | Device r _ => r end.

(** The error [open(path, 'r')] raises on an existing node, if any:
    [EACCES] from the system call, else the refusal of directories. *)
Definition open_error (n : node) : option exn :=
  if negb (perm_r n) then Some PermissionError
  else match n with
       | Directory _ => Some IsADirectoryError
       | _ => None
       end.

Definition node_contents (n : node) : contents :=
  match n with
  | Regular _ c | Device _ c => c
  | Directory _ => Unreadable IsADirectoryError
  end.

(** The operations the script performs, in the order of the log.  There
    is no constructor that writes to the filesystem: the script calls
    nothing that does. *)
Inductive event :=
| Print (line : pystr)           (* print(line): the line and a newline on stdout *)
| Exists (path : pystr)          (* os.path.exists(path) *)
| Open (path : pystr)            (* open(path, 'r') *)
| Read (path : pystr)            (* f.read() *)
| Close (path : pystr)           (* f.close(), from the with statement *)
| Traceback (e : exn).           (* the interpreter reports an uncaught exception *)

#[global] Instance exn_eq_dec : EqDecision exn.
Proof. solve_decision. Defined.
#[global] Instance event_eq_dec : EqDecision event.
Proof. solve_decision. Defined.

Record world := World { fs : gmap pystr node; log : list event }.

Definition emit (e : event) (w : world) : world :=
  {| fs := fs w; log := log w ++ [e] |}.

(** ** The monad of the script *)

Inductive result (A : Type) :=
| Ok (a : A)
| Raise (e : exn).
Arguments Ok {A} a.
Arguments Raise {A} e.

Definition M (A : Type) : Type := world -> result A * world.

Definition ret {A} (a : A) : M A := fun w => (Ok a, w).

Definition bind {A B} (m : M A) (k : A -> M B) : M B :=
  fun w =>
    match m w with
    | (Ok a, w') => k a w'
    | (Raise e, w') => (Raise e, w')
    end.

Notation "x <- m ;; k" := (bind m (fun x => k))
  (at level 100, m at next level, right associativity).
Notation "m ;; k" := (bind m (fun _ => k))
  (at level 100, right associativity).

(** ** Runtime operations *)

Definition print (line : pystr) : M unit :=
  fun w => (Ok tt, emit (Print line) w).

Definition exists_ (path : pystr) : M bool :=
  fun w =>
    (Ok (match fs w !! path with Some _ => true | None => false end),
     emit (Exists path) w).

(** A file object opened for reading. *)
Record file := File { name : pystr }.

Definition open_r (path : pystr) : M file :=
  fun w =>
    let w' := emit (Open path) w in
    match fs w !! path with
    | None => (Raise FileNotFoundError, w')
    | Some n =>
        match open_error n with
        | Some e => (Raise e, w')
        | None => (Ok (File path), w')
        end
    end.

Definition read (f : file) : M pystr :=
  fun w =>
    let w' := emit (Read (name f)) w in
    match fs w !! name f with
    | None => (Raise OSError, w')
    | Some n =>
        match node_contents n with
        | Text s => (Ok s, w')
        | Unreadable e => (Raise e, w')
        end
    end.

(** [with open(path, 'r') as f: body]: the file is closed when the body
    is left, normally or by an exception, which is raised again. *)
Definition with_open {A} (path : pystr) (body : file -> M A) : M A :=
  fun w =>
    match open_r path w with
    | (Raise e, w1) => (Raise e, w1)
    | (Ok f, w1) =>
        let (r, w2) := body f w1 in
        (r, emit (Close (name f)) w2)
    end.

(** ** The script *)

Definition project_dir : pystr :=
  lit "/Users/WORK2/Desktop/Rapid Notes/Rapid Notes".

Definition env_file : pystr :=
  os_path.join project_dir [lit "Rapid Notes"; lit ".env"].

Definition check_mark : pystr := [0x2705].
Definition cross_mark : pystr := [0x274C].
Definition newline : pystr := [10].

Definition main : M unit :=
  print (lit "=== Adding .env file to Xcode project ===") ;;
  print (lit "Project directory: " ++ project_dir) ;;
  print (lit ".env file path: " ++ env_file) ;;
  found <- exists_ env_file ;;
  if found : bool then
    print (check_mark ++ lit " .env file found") ;;
    with_open env_file (fun f =>
      content <- read f ;;
      print (lit "Content preview: " ++ slice_to 100 content ++ lit "...")) ;;
    print (newline ++ lit "To add .env to Xcode project:") ;;
    print (lit "1. In Xcode, right-click on 'Rapid Notes' folder") ;;
    print (lit "2. Choose 'Add Files to Rapid Notes'") ;;
    print (lit "3. Navigate to and select the .env file") ;;
    print (lit "4. Make sure 'Add to target: Rapid Notes' is checked") ;;
    print (lit "5. Choose 'Create folder references' (not groups)") ;;
    print (lit "6. Click 'Add'")
  else
    print (cross_mark ++ lit " .env file not found") ;;
    print (lit "Please create the .env file first").

(** Running the file as a script: [main()] is called on a fresh log; a
    normal return ends the process with status 0, an uncaught exception
    is reported and ends it with status 1. *)
Record run := Run { status : Z; uncaught : option exn; final : world }.

Definition script (fs0 : gmap pystr node) : run :=
  match main (World fs0 []) with
  | (Ok _, w) => Run 0 None w
  | (Raise e, w) => Run 1 (Some e) (emit (Traceback e) w)
  end.

Definition trace (fs0 : gmap pystr node) : list event := log (final (script fs0)).

(** What goes to standard output: the printed lines, in order. *)
Definition printed (l : list event) : list pystr :=
  omap (fun e => match e with Print line => Some line | _ => None end) l.

Definition is_check (e : event) : bool :=
  match e with Exists _ => true | _ => false end.
Definition is_open (e : event) : bool :=
  match e with Open _ => true | _ => false end.
Definition is_read (e : event) : bool :=
  match e with Read _ => true | _ => false end.

Definition count (p : event -> bool) (l : list event) : nat :=
  length (List.filter p l).

(** ** The expected output, as the specification words it *)

(** The banner and the two computed paths. *)
Definition banner : list pystr :=
  [ lit "=== Adding .env file to Xcode project ===";
    lit "Project directory: " ++ project_dir;
    lit ".env file path: " ++ env_file ].

Definition found_line : pystr := check_mark ++ lit " .env file found".
Definition not_found_line : pystr := cross_mark ++ lit " .env file not found".
Definition create_prompt : pystr := lit "Please create the .env file first".

(** The first 100 characters of the content, then the ellipsis marker. *)
Definition preview (content : pystr) : pystr :=
  lit "Content preview: " ++ take 100 content ++ lit "...".

(** The heading and the six numbered steps. *)
Definition instructions : list pystr :=
  [ newline ++ lit "To add .env to Xcode project:";
    lit "1. In Xcode, right-click on 'Rapid Notes' folder";
    lit "2. Choose 'Add Files to Rapid Notes'";
    lit "3. Navigate to and select the .env file";
    lit "4. Make sure 'Add to target: Rapid Notes' is checked";
    lit "5. Choose 'Create folder references' (not groups)";
    lit "6. Click 'Add'" ].

(** The complete log of a run that finds the file and previews [content]. *)
Definition success_trace (content : pystr) : list event :=
  map Print banner
  ++ [ Exists env_file; Print found_line;
       Open env_file; Read env_file; Print (preview content); Close env_file ]
  ++ map Print instructions.

(** The log of a run that finds nothing at the path. *)
Definition not_found_trace : list event :=
  map Print banner
  ++ [ Exists env_file; Print not_found_line; Print create_prompt ].

(** The log of a run whose [open] raises [e]. *)
Definition open_failure_trace (e : exn) : list event :=
  map Print banner
  ++ [ Exists env_file; Print found_line; Open env_file; Traceback e ].

(** The log of a run whose [read] raises [e]. *)
Definition read_failure_trace (e : exn) : list event :=
  map Print banner
  ++ [ Exists env_file; Print found_line;
       Open env_file; Read env_file; Close env_file; Traceback e ].

(** The node can be opened and reading it yields [content]. *)
Definition readable_as (n : node) (content : pystr) : Prop :=
  open_error n = None /\ node_contents n = Text content.

(** Opening the node, or reading it once opened, raises [e]. *)
Definition fails_with (n : node) (e : exn) : Prop :=
  open_error n = Some e
  \/ (open_error n = None /\ node_contents n = Unreadable e).

(** A run that finds the entry and returns from [main]. *)
Definition success_path (fs0 : gmap pystr node) : Prop :=
  is_Some (fs0 !! env_file) /\ uncaught (script fs0) = None.

(** Filesystems used as concrete inputs. *)
Definition sample_text : pystr := lit "API_KEY=abc123".

Definition fs_with (n : node) : gmap pystr node := {[ env_file := n ]}.

Definition fs_regular : gmap pystr node := fs_with (Regular true (Text sample_text)).
Definition fs_other : gmap pystr node := fs_with (Regular true (Text (lit "X=1"))).
Definition fs_directory : gmap pystr node := fs_with (Directory true).
Definition fs_device : gmap pystr node := fs_with (Device true (Text [])).
Definition fs_locked : gmap pystr node := fs_with (Regular false (Text sample_text)).
Definition fs_absent : gmap pystr node := ∅.

(** An operation that leaves the filesystem as it found it, whatever it
    returns or raises. *)
Definition preserves_fs {A} (m : M A) : Prop :=
  forall w, fs (snd (m w)) = fs w.


(** The path a filesystem operation is about. *)
Definition event_path (e : event) : option pystr :=
  match e with
  | Exists path | Open path | Read path | Close path => Some path
  | Print _ | Traceback _ => None
  end.

(** The body of the module: [def main] only binds the function, and the
    guard at the end calls it when the module runs as the main program,
    that is when [__name__] is ["__main__"]. *)
Definition module_exec (dunder_name : pystr) : M unit :=
  if bool_decide (dunder_name = lit "__main__") then main else ret tt.

(** Two contents longer than 100 characters that agree on the first 100
    and differ afterwards. *)
Definition long_a : pystr := replicate 100 65 ++ lit "SECRET=1".
Definition long_b : pystr := replicate 100 65 ++ lit "SECRET=2".

Definition fs_long_a : gmap pystr node := fs_with (Regular true (Text long_a)).
Definition fs_long_b : gmap pystr node := fs_with (Regular true (Text long_b)).


(** The text written to standard output: every printed line followed by
    the newline that [print] adds. *)
Definition written (l : list event) : pystr :=
  flat_map (fun line => line ++ newline) (printed l).

(** ** The script over any runtime *)

(** What the script needs of the Python runtime. *)
Class Runtime (m : Type -> Type) := {
  r_bind : forall {A B : Type}, m A -> (A -> m B) -> m B;
  r_print : pystr -> m unit;
  r_exists : pystr -> m bool;
  r_with_open : forall {A : Type}, pystr -> (file -> m A) -> m A;
  r_read : file -> m pystr
}.

Notation "x <~ m >>; k" := (r_bind m (fun x => k))
  (at level 100, m at next level, right associativity).
Notation "m >>; k" := (r_bind m (fun _ => k))
  (at level 100, right associativity).

(** The body of [main], statement by statement, over a runtime [m]. *)
Definition main_on (m : Type -> Type) `{Runtime m} : m unit :=
  r_print (lit "=== Adding .env file to Xcode project ===") >>;
  r_print (lit "Project directory: " ++ project_dir) >>;
  r_print (lit ".env file path: " ++ env_file) >>;
  found <~ r_exists env_file >>;
  if found : bool then
    r_print (check_mark ++ lit " .env file found") >>;
    r_with_open env_file (fun f =>
      content <~ r_read f >>;
      r_print (lit "Content preview: " ++ slice_to 100 content ++ lit "...")) >>;
    r_print (newline ++ lit "To add .env to Xcode project:") >>;
    r_print (lit "1. In Xcode, right-click on 'Rapid Notes' folder") >>;
    r_print (lit "2. Choose 'Add Files to Rapid Notes'") >>;
    r_print (lit "3. Navigate to and select the .env file") >>;
    r_print (lit "4. Make sure 'Add to target: Rapid Notes' is checked") >>;
    r_print (lit "5. Choose 'Create folder references' (not groups)") >>;
    r_print (lit "6. Click 'Add'")
  else
    r_print (cross_mark ++ lit " .env file not found") >>;
    r_print (lit "Please create the .env file first").

(** The runtime in which every operation returns or raises at once. *)
#[global] Instance base_runtime : Runtime M := {|
  r_bind := @bind;
  r_print := print;
  r_exists := exists_;
  r_with_open := @with_open;
  r_read := read
|}.

(** ** Entries on which the runtime waits, entries out of reach *)

(** What can be on disk at a path: a node as above that [stat] reaches;
    a named pipe that no process has opened for writing; a device whose
    read never comes to an end of file; an entry for which [stat] fails
    (a directory above it cannot be searched, or it is a symbolic link
    to nothing).  The flag of a pipe or device is the read permission. *)
Inductive entry :=
| Plain (n : node)
| Fifo (r : bool)
| Endless (r : bool)
| Hidden.

(** [open] or [read] of the entry never returns. *)
Definition waits (e : entry) : bool :=
  match e with
  | Fifo true | Endless true => true
  | _ => false
  end.

(** [os.path.exists] answers [True]: it is [True] when [os.stat]
    succeeds and [False] when it raises. *)
Definition visible (e : entry) : bool :=
  match e with
  | Hidden => false
  | _ => true
  end.

(** Opening or reading the entry raises [x]. *)
Definition raises (e : entry) (x : exn) : Prop :=
  match e with
  | Plain n => fails_with n x
  | Fifo r | Endless r => r = false /\ x = PermissionError
  | Hidden => False
  end.

(** An operation returns, raises, or never comes back. *)
Inductive outcome (A : Type) :=
| Returns (a : A)
| Raises (e : exn)
| Blocks.
Arguments Returns {A} a.
Arguments Raises {A} e.
Arguments Blocks {A}.

Record wworld := WWorld { wfs : gmap pystr entry; wlog : list event }.

Definition w_emit (e : event) (w : wworld) : wworld :=
  {| wfs := wfs w; wlog := wlog w ++ [e] |}.

Definition W (A : Type) : Type := wworld -> outcome A * wworld.

(** Nothing follows an operation that never comes back. *)
Definition w_bind {A B} (m : W A) (k : A -> W B) : W B :=
  fun w =>
    match m w with
    | (Returns a, w') => k a w'
    | (Raises e, w') => (Raises e, w')
    | (Blocks, w') => (Blocks, w')
    end.

Definition w_print (line : pystr) : W unit :=
  fun w => (Returns tt, w_emit (Print line) w).

Definition w_exists (path : pystr) : W bool :=
  fun w =>
    (Returns (match wfs w !! path with Some e => visible e | None => false end),
     w_emit (Exists path) w).

(** [open(path, 'r')]: the permission is checked first; opening a pipe
    for reading then waits for a writer. *)
Definition w_open (path : pystr) : W file :=
  fun w =>
    let w' := w_emit (Open path) w in
    match wfs w !! path with
    | None => (Raises FileNotFoundError, w')
    | Some Hidden => (Raises PermissionError, w')
    | Some (Plain n) =>
        match open_error n with
        | Some e => (Raises e, w')
        | None => (Returns (File path), w')
        end
    | Some (Fifo r) =>
        if r then (Blocks, w') else (Raises PermissionError, w')
    | Some (Endless r) =>
        if r then (Returns (File path), w') else (Raises PermissionError, w')
    end.

(** [f.read()] reads up to the end of file, which never comes on a pipe
    kept open or on an endless device. *)
Definition w_read (f : file) : W pystr :=
  fun w =>
    let w' := w_emit (Read (name f)) w in
    match wfs w !! name f with
    | Some (Plain n) =>
        match node_contents n with
        | Text s => (Returns s, w')
        | Unreadable e => (Raises e, w')
        end
    | Some (Fifo _) | Some (Endless _) => (Blocks, w')
    | Some Hidden | None => (Raises OSError, w')
    end.

(** The [with] statement: the file is closed when the body is left; a
    body that never comes back is never left. *)
Definition w_with_open {A} (path : pystr) (body : file -> W A) : W A :=
  fun w =>
    match w_open path w with
    | (Raises e, w1) => (Raises e, w1)
    | (Blocks, w1) => (Blocks, w1)
    | (Returns f, w1) =>
        match body f w1 with
        | (Blocks, w2) => (Blocks, w2)
        | (r, w2) => (r, w_emit (Close (name f)) w2)
        end
    end.

#[global] Instance waiting_runtime : Runtime W := {|
  r_bind := @w_bind;
  r_print := w_print;
  r_exists := w_exists;
  r_with_open := @w_with_open;
  r_read := w_read
|}.

(** How a process running the script fares: it ends with a status, or
    it stays for ever in the last operation of its log. *)
Inductive fate :=
| Ends (status : Z) (uncaught : option exn) (l : list event)
| Waits (l : list event).

Definition fate_log (f : fate) : list event :=
  match f with Ends _ _ l | Waits l => l end.

Definition w_script (fs0 : gmap pystr entry) : fate :=
  match main_on W (WWorld fs0 []) with
  | (Returns _, w) => Ends 0 None (wlog w)
  | (Raises e, w) => Ends 1 (Some e) (wlog w ++ [Traceback e])
  | (Blocks, w) => Waits (wlog w)
  end.

(** The operations up to an [open] that waits, and up to a [read] that
    waits. *)
Definition open_waits_trace : list event :=
  map Print banner ++ [ Exists env_file; Print found_line; Open env_file ].

Definition read_waits_trace : list event :=
  map Print banner
  ++ [ Exists env_file; Print found_line; Open env_file; Read env_file ].

(** Filesystems of the wider model used as concrete inputs. *)
Definition wfs_with (e : entry) : gmap pystr entry := {[ env_file := e ]}.

Definition wfs_pipe : gmap pystr entry := wfs_with (Fifo true).
Definition wfs_endless : gmap pystr entry := wfs_with (Endless true).
Definition wfs_hidden : gmap pystr entry := wfs_with Hidden.
Definition wfs_plain : gmap pystr entry := Plain <$> fs_regular.
Definition wfs_absent : gmap pystr entry := ∅.

(** * Properties *)

(** ** Slicing *)

Lemma adjust_stop_nonneg (stop len : Z) :
  (0 <= stop)%Z -> (0 <= len)%Z -> adjust_stop stop len = Z.min stop len.
Proof.
  intros Hs Hl. unfold adjust_stop.
  destruct (Z.ltb_spec stop 0); [lia|].
  rewrite Z.geb_leb. destruct (Z.leb_spec len stop); lia.
Qed.

Lemma slice_to_take (k : nat) (s : pystr) :
  slice_to (Z.of_nat k) s = take k s.
Proof.
  unfold slice_to. rewrite adjust_stop_nonneg by lia.
  destruct (le_lt_dec k (length s)) as [Hle|Hlt].
  - rewrite Z.min_l by lia. now rewrite Nat2Z.id.
  - rewrite Z.min_r by lia. rewrite Nat2Z.id.
    rewrite !take_ge; [reflexivity | lia | lia].
Qed.

Lemma slice_to_100 (s : pystr) : slice_to 100 s = take 100 s.
Proof. exact (slice_to_take 100 s). Qed.

Lemma slice_to_short (s : pystr) :
  (length s < 100)%nat -> slice_to 100 s = s.
Proof. intros H. rewrite slice_to_100. apply take_ge. lia. Qed.

(** ** The four runs of the script *)

(** The script has exactly four behaviours, selected by what is at the
    path: nothing, something [open] refuses, something that opens but
    cannot be read, and something that reads. *)
Lemma script_cases (fs0 : gmap pystr node) :
  script fs0 =
    match fs0 !! env_file with
    | None => Run 0 None (World fs0 not_found_trace)
    | Some n =>
        match open_error n with
        | Some e => Run 1 (Some e) (World fs0 (open_failure_trace e))
        | None =>
            match node_contents n with
            | Text content => Run 0 None (World fs0 (success_trace content))
            | Unreadable e => Run 1 (Some e) (World fs0 (read_failure_trace e))
            end
        end
    end.
Proof.
  unfold script, main, bind, print, exists_, with_open, open_r, read, emit.
  cbn [fs log name].
  destruct (fs0 !! env_file) as [n|] eqn:Hn; [|reflexivity].
  cbn [fs log name]. rewrite Hn.
  destruct (open_error n) as [e|]; [reflexivity|].
  cbn [fs log name]. rewrite Hn.
  destruct (node_contents n) as [content|e]; [|reflexivity].
  cbn [fs log name]. rewrite slice_to_100. reflexivity.
Qed.

Lemma trace_not_found (fs0 : gmap pystr node) :
  fs0 !! env_file = None -> script fs0 = Run 0 None (World fs0 not_found_trace).
Proof. intros H. rewrite script_cases, H. reflexivity. Qed.

Lemma trace_readable (fs0 : gmap pystr node) (n : node) (content : pystr) :
  fs0 !! env_file = Some n -> readable_as n content ->
  script fs0 = Run 0 None (World fs0 (success_trace content)).
Proof. intros H [Ho Hc]. rewrite script_cases, H, Ho, Hc. reflexivity. Qed.

Lemma trace_failure (fs0 : gmap pystr node) (n : node) (e : exn) :
  fs0 !! env_file = Some n -> fails_with n e ->
  exists l, script fs0 = Run 1 (Some e) (World fs0 l)
            /\ (l = open_failure_trace e \/ l = read_failure_trace e).
Proof.
  intros H [Ho|[Ho Hc]]; rewrite script_cases, H, Ho.
  - eexists; split; [reflexivity | now left].
  - rewrite Hc. eexists; split; [reflexivity | now right].
Qed.

(** A run that finds the entry and is not cut short read some content. *)
Lemma success_path_readable (fs0 : gmap pystr node) :
  success_path fs0 ->
  exists n content, fs0 !! env_file = Some n /\ readable_as n content.
Proof.
  intros [[n Hn] Hu]. rewrite script_cases, Hn in Hu.
  exists n. unfold readable_as.
  destruct (open_error n) as [e|]; [discriminate|].
  destruct (node_contents n) as [content|e]; [|discriminate].
  now exists content.
Qed.

Lemma printed_success (content : pystr) :
  printed (success_trace content)
  = (banner ++ [found_line]) ++ [preview content] ++ instructions.
Proof. reflexivity. Qed.

Ltac in_list :=
  apply list_elem_of_In; cbv [In app map banner instructions]; tauto.

Ltac not_in_list H :=
  apply list_elem_of_In in H; cbv [In app map banner instructions] in H;
  repeat (destruct H as [H|H]; [discriminate H|]); exact H.

(** ** The filesystem is only read *)

Section Frame.

Lemma print_preserves_fs (line : pystr) : preserves_fs (print line).
Proof. intros w. reflexivity. Qed.

Lemma exists_preserves_fs (path : pystr) : preserves_fs (exists_ path).
Proof. intros w. reflexivity. Qed.

Lemma open_preserves_fs (path : pystr) : preserves_fs (open_r path).
Proof.
  intros w. unfold open_r.
  destruct (fs w !! path) as [n|]; [|reflexivity].
  destruct (open_error n); reflexivity.
Qed.

Lemma read_preserves_fs (f : file) : preserves_fs (read f).
Proof.
  intros w. unfold read.
  destruct (fs w !! name f) as [n|]; [|reflexivity].
  destruct (node_contents n); reflexivity.
Qed.

Lemma bind_preserves_fs {A B} (m : M A) (k : A -> M B) :
  preserves_fs m -> (forall a, preserves_fs (k a)) -> preserves_fs (bind m k).
Proof.
  intros Hm Hk w. unfold bind. specialize (Hm w).
  destruct (m w) as [[a|e] w']; cbn [snd] in *.
  - now rewrite Hk.
  - exact Hm.
Qed.

Lemma with_open_preserves_fs {A} (path : pystr) (body : file -> M A) :
  (forall f, preserves_fs (body f)) -> preserves_fs (with_open path body).
Proof.
  intros Hb w. unfold with_open.
  pose proof (open_preserves_fs path w) as Ho.
  destruct (open_r path w) as [[f|e] w1]; cbn [snd] in *; [|exact Ho].
  specialize (Hb f w1). destruct (body f w1) as [r w2]; cbn [snd] in *.
  unfold emit. cbn [fs]. congruence.
Qed.

Lemma main_preserves_fs : preserves_fs main.
Proof.
  unfold main.
  repeat match goal with
    | |- preserves_fs (print _) => apply print_preserves_fs
    | |- preserves_fs (exists_ _) => apply exists_preserves_fs
    | |- preserves_fs (read _) => apply read_preserves_fs
    | |- preserves_fs (with_open _ _) => apply with_open_preserves_fs
    | |- preserves_fs (bind _ _) => apply bind_preserves_fs
    | |- forall _ : bool, _ => intros []
    | |- forall _, _ => intro
    end.
Qed.

End Frame.

(** ** The claims *)

(** C1, as the claim words it, fails: a directory at the path is an
    existing entry, and the run stops at [open] after seven operations
    instead of producing the sixteen of a successful run. *)
Lemma found_entry_not_always_read :
  is_Some (fs_directory !! env_file)
  /\ ~ (exists content, trace fs_directory = success_trace content).
Proof.
  split.
  - vm_compute. eauto.
  - intros [content H]. apply (f_equal length) in H.
    vm_compute in H. discriminate H.
Qed.

(** C1, amended: whenever the entry at the env file path can be opened
    and read, the run prints the banner, checks existence, prints the
    success marker, opens and reads the whole file, prints the first 100
    characters followed by the ellipsis marker, closes the file and
    prints the heading and the six numbered steps, in that order, and
    nothing else. *)
Theorem found_readable_run (fs0 : gmap pystr node) (n : node) (content : pystr) :
  fs0 !! env_file = Some n ->
  readable_as n content ->
  trace fs0
  = map Print banner
    ++ [ Exists env_file; Print found_line; Open env_file; Read env_file;
         Print (lit "Content preview: " ++ take 100 content ++ lit "...");
         Close env_file ]
    ++ map Print instructions.
Proof.
  intros Hn Hr. unfold trace. rewrite (trace_readable fs0 n content Hn Hr).
  reflexivity.
Qed.

Lemma found_readable_run_witness :
  trace fs_regular
  = map Print banner
    ++ [ Exists env_file; Print found_line; Open env_file; Read env_file;
         Print (lit "Content preview: " ++ take 100 sample_text ++ lit "...");
         Close env_file ]
    ++ map Print instructions.
Proof.
  apply (found_readable_run fs_regular (Regular true (Text sample_text))).
  - vm_compute. reflexivity.
  - split; reflexivity.
Defined.

(** C2: when nothing exists at the env file path, the run prints the
    banner, checks existence, prints the failure marker and the prompt
    to create the file, and opens no file. *)
Theorem not_found_run (fs0 : gmap pystr node) :
  fs0 !! env_file = None ->
  trace fs0
  = map Print banner
    ++ [ Exists env_file; Print not_found_line; Print create_prompt ]
  /\ (forall path, Open path ∉ trace fs0)
  /\ count is_open (trace fs0) = 0%nat.
Proof.
  intros Hn. unfold trace. rewrite (trace_not_found fs0 Hn). cbn [final log].
  split; [reflexivity|]. split; [|reflexivity].
  intros path H. unfold not_found_trace in H. not_in_list H.
Qed.

Lemma not_found_run_witness :
  trace fs_absent
  = map Print banner
    ++ [ Exists env_file; Print not_found_line; Print create_prompt ]
  /\ (forall path, Open path ∉ trace fs_absent)
  /\ count is_open (trace fs_absent) = 0%nat.
Proof.
  apply (not_found_run fs_absent). vm_compute. reflexivity.
Defined.

(** C3: when the content read is shorter than 100 characters, the slice
    [content[:100]] is the whole content, the preview line is the whole
    content followed by the ellipsis marker, and the run raises nothing. *)
Theorem short_content_preview (fs0 : gmap pystr node) (n : node) (content : pystr) :
  fs0 !! env_file = Some n ->
  readable_as n content ->
  (length content < 100)%nat ->
  slice_to 100 content = content
  /\ Print (lit "Content preview: " ++ content ++ lit "...") ∈ trace fs0
  /\ printed (trace fs0) !! 4%nat
     = Some (lit "Content preview: " ++ content ++ lit "...")
  /\ uncaught (script fs0) = None.
Proof.
  intros Hn Hr Hlen.
  assert (Ht : take 100 content = content) by (apply take_ge; lia).
  unfold trace. rewrite (trace_readable fs0 n content Hn Hr). cbn [final log uncaught].
  split; [now apply slice_to_short|].
  unfold success_trace, preview. rewrite Ht.
  split; [in_list|]. split; reflexivity.
Qed.

Lemma short_content_preview_witness :
  slice_to 100 sample_text = sample_text
  /\ Print (lit "Content preview: " ++ sample_text ++ lit "...") ∈ trace fs_regular
  /\ printed (trace fs_regular) !! 4%nat
     = Some (lit "Content preview: " ++ sample_text ++ lit "...")
  /\ uncaught (script fs_regular) = None.
Proof.
  apply (short_content_preview fs_regular (Regular true (Text sample_text))).
  - vm_compute. reflexivity.
  - split; reflexivity.
  - vm_compute. lia.
Defined.

(** C4: whether nothing is found or a readable entry is found, [main]
    returns and the process ends with status 0, the same in both cases;
    the not-found case shows only as the printed failure marker. *)
Theorem normal_exit_found_or_not (fs0 : gmap pystr node) :
  fs0 !! env_file = None
  \/ (exists n content, fs0 !! env_file = Some n /\ readable_as n content) ->
  status (script fs0) = 0%Z
  /\ uncaught (script fs0) = None
  /\ (forall e, Traceback e ∉ trace fs0)
  /\ (fs0 !! env_file = None -> Print not_found_line ∈ trace fs0).
Proof.
  intros [Hn | (n & content & Hn & Hr)]; unfold trace.
  - rewrite (trace_not_found fs0 Hn). cbn [status uncaught final log].
    repeat split.
    + intros e H. unfold not_found_trace in H. not_in_list H.
    + intros _. unfold not_found_trace. in_list.
  - rewrite (trace_readable fs0 n content Hn Hr). cbn [status uncaught final log].
    repeat split.
    + intros e H. unfold success_trace in H. not_in_list H.
    + intros Hnone. congruence.
Qed.

Lemma normal_exit_found_or_not_witness :
  (status (script fs_absent) = 0%Z /\ uncaught (script fs_absent) = None)
  /\ (status (script fs_regular) = 0%Z /\ uncaught (script fs_regular) = None).
Proof.
  split.
  - destruct (normal_exit_found_or_not fs_absent) as (Hs & Hu & _).
    + left. vm_compute. reflexivity.
    + split; assumption.
  - destruct (normal_exit_found_or_not fs_regular) as (Hs & Hu & _).
    + right. exists (Regular true (Text sample_text)), sample_text.
      split; [vm_compute; reflexivity | split; reflexivity].
    + split; assumption.
Defined.

(** C5: the env file path is the join of the hardcoded project
    directory, the subdirectory name and the file name, and every run
    starts by printing the banner and both paths before it checks
    existence, which it does once, afterwards. *)
Theorem paths_and_banner_before_check (fs0 : gmap pystr node) :
  env_file = os_path.join project_dir [lit "Rapid Notes"; lit ".env"]
  /\ env_file
     = lit "/Users/WORK2/Desktop/Rapid Notes/Rapid Notes/Rapid Notes/.env"
  /\ exists rest,
       trace fs0
       = [ Print (lit "=== Adding .env file to Xcode project ===");
           Print (lit "Project directory: " ++ project_dir);
           Print (lit ".env file path: " ++ env_file);
           Exists env_file ] ++ rest
       /\ count is_check rest = 0%nat.
Proof.
  split; [reflexivity|]. split; [vm_compute; reflexivity|].
  unfold trace. rewrite script_cases.
  destruct (fs0 !! env_file) as [n|].
  - destruct (open_error n) as [e|].
    + eexists. split; reflexivity.
    + destruct (node_contents n) as [content|e]; eexists; split; reflexivity.
  - eexists. split; reflexivity.
Qed.

(** C6: two runs that both find the entry and complete print the same
    lines except for the preview line: the banner, the paths and the
    success marker before it and the heading with the six steps after
    it are the same, whatever the two contents are. *)
Theorem instructions_independent_of_content (fs1 fs2 : gmap pystr node) :
  success_path fs1 ->
  success_path fs2 ->
  exists c1 c2,
    printed (trace fs1) = (banner ++ [found_line]) ++ [preview c1] ++ instructions
    /\ printed (trace fs2) = (banner ++ [found_line]) ++ [preview c2] ++ instructions
    /\ drop 5 (printed (trace fs1)) = instructions
    /\ drop 5 (printed (trace fs2)) = drop 5 (printed (trace fs1)).
Proof.
  intros H1 H2.
  destruct (success_path_readable fs1 H1) as (n1 & c1 & Hn1 & Hr1).
  destruct (success_path_readable fs2 H2) as (n2 & c2 & Hn2 & Hr2).
  exists c1, c2. unfold trace.
  rewrite (trace_readable fs1 n1 c1 Hn1 Hr1), (trace_readable fs2 n2 c2 Hn2 Hr2).
  cbn [final log]. rewrite !printed_success.
  repeat split.
Qed.

Lemma instructions_independent_of_content_witness :
  success_path fs_regular /\ success_path fs_other
  /\ exists c1 c2,
    printed (trace fs_regular)
    = (banner ++ [found_line]) ++ [preview c1] ++ instructions
    /\ printed (trace fs_other)
       = (banner ++ [found_line]) ++ [preview c2] ++ instructions
    /\ drop 5 (printed (trace fs_regular)) = instructions
    /\ drop 5 (printed (trace fs_other)) = drop 5 (printed (trace fs_regular)).
Proof.
  assert (Ha : success_path fs_regular) by (split; vm_compute; eauto).
  assert (Hb : success_path fs_other) by (split; vm_compute; eauto).
  split; [exact Ha|]. split; [exact Hb|].
  exact (instructions_independent_of_content fs_regular fs_other Ha Hb).
Defined.

(** C7: when an entry exists at the env file path and opening it, or
    reading it once opened, raises an error, that very error leaves
    [main] uncaught: the process reports it and ends with status 1, and
    nothing is printed after the success marker. *)
Theorem open_or_read_failure_propagates
    (fs0 : gmap pystr node) (n : node) (e : exn) :
  fs0 !! env_file = Some n ->
  fails_with n e ->
  uncaught (script fs0) = Some e
  /\ status (script fs0) = 1%Z
  /\ status (script fs0) <> 0%Z
  /\ last (trace fs0) = Some (Traceback e)
  /\ printed (trace fs0) = banner ++ [found_line].
Proof.
  intros Hn Hf. unfold trace.
  destruct (trace_failure fs0 n e Hn Hf) as (l & -> & [-> | ->]);
    cbn [uncaught status final log]; repeat split; discriminate.
Qed.

Lemma open_or_read_failure_propagates_witness :
  fs_locked !! env_file = Some (Regular false (Text sample_text))
  /\ fails_with (Regular false (Text sample_text)) PermissionError
  /\ uncaught (script fs_locked) = Some PermissionError
  /\ status (script fs_locked) = 1%Z
  /\ status (script fs_locked) <> 0%Z
  /\ last (trace fs_locked) = Some (Traceback PermissionError)
  /\ printed (trace fs_locked) = banner ++ [found_line].
Proof.
  assert (Hn : fs_locked !! env_file = Some (Regular false (Text sample_text)))
    by (vm_compute; reflexivity).
  assert (Hf : fails_with (Regular false (Text sample_text)) PermissionError)
    by (left; reflexivity).
  split; [exact Hn|]. split; [exact Hf|].
  exact (open_or_read_failure_propagates fs_locked _ _ Hn Hf).
Defined.

(** C8: every run leaves the filesystem exactly as it was, checks
    existence exactly once, opens at most one file and reads at most
    once; these are the only filesystem operations there are. *)
Theorem read_only_access (fs0 : gmap pystr node) :
  fs (final (script fs0)) = fs0
  /\ preserves_fs main
  /\ count is_check (trace fs0) = 1%nat
  /\ (count is_open (trace fs0) <= 1)%nat
  /\ (count is_read (trace fs0) <= 1)%nat.
Proof.
  split.
  - pose proof (main_preserves_fs (World fs0 [])) as H.
    unfold script. destruct (main (World fs0 [])) as [[u|e] w]; exact H.
  - split; [exact main_preserves_fs|].
    unfold trace. rewrite script_cases.
    destruct (fs0 !! env_file) as [n|].
    + destruct (open_error n) as [e|].
      * cbn. lia.
      * destruct (node_contents n) as [content|e]; cbn; lia.
    + cbn. lia.
Qed.

(** C10, as the claim words it, fails for entries other than
    directories: a readable character device at the path is not a
    regular file, yet it opens and reads (here as empty), and the run
    completes with the preview and the instructions. *)
Lemma device_entry_is_previewed :
  fs_device !! env_file = Some (Device true (Text []))
  /\ is_regular (Device true (Text [])) = false
  /\ uncaught (script fs_device) = None
  /\ status (script fs_device) = 0%Z
  /\ trace fs_device = success_trace []
  /\ ~ (forall (fs0 : gmap pystr node) (n : node),
          fs0 !! env_file = Some n -> is_regular n = false ->
          exists e, trace fs0 = open_failure_trace e).
Proof.
  assert (Hn : fs_device !! env_file = Some (Device true (Text [])))
    by (vm_compute; reflexivity).
  repeat split; try (vm_compute; reflexivity).
  intros H. destruct (H fs_device _ Hn eq_refl) as [e He].
  apply (f_equal length) in He. vm_compute in He. discriminate He.
Qed.

(** C10, amended: the existence check accepts a directory; with a
    directory at the env file path the run prints the success marker,
    then fails at [open], before any read, and the process ends with
    status 1 after the marker has been printed. *)
Theorem directory_found_then_open_fails (fs0 : gmap pystr node) (r : bool) :
  fs0 !! env_file = Some (Directory r) ->
  exists e,
    e = (if r then IsADirectoryError else PermissionError)
    /\ trace fs0
       = map Print banner
         ++ [ Exists env_file; Print found_line; Open env_file; Traceback e ]
    /\ uncaught (script fs0) = Some e
    /\ status (script fs0) = 1%Z
    /\ count is_read (trace fs0) = 0%nat.
Proof.
  intros Hn. unfold trace. rewrite script_cases, Hn.
  destruct r; eexists; repeat split.
Qed.

Lemma directory_found_then_open_fails_witness :
  fs_directory !! env_file = Some (Directory true)
  /\ exists e,
    e = IsADirectoryError
    /\ trace fs_directory
       = map Print banner
         ++ [ Exists env_file; Print found_line; Open env_file; Traceback e ]
    /\ uncaught (script fs_directory) = Some e
    /\ status (script fs_directory) = 1%Z
    /\ count is_read (trace fs_directory) = 0%nat.
Proof.
  assert (Hn : fs_directory !! env_file = Some (Directory true))
    by (vm_compute; reflexivity).
  split; [exact Hn|].
  exact (directory_found_then_open_fails fs_directory true Hn).
Defined.

(** ** Further properties of the script *)

(** [main] only appends to the log: started on a log [l0] it behaves as
    on the empty log and leaves [l0] in front of what it adds. *)
Lemma main_appends (fs0 : gmap pystr node) (l0 : list event) :
  main (World fs0 l0)
  = (fst (main (World fs0 [])),
     World fs0 (l0 ++ log (snd (main (World fs0 []))))).
Proof.
  unfold main, bind, print, exists_, with_open, open_r, read, emit.
  cbn [fs log name].
  destruct (fs0 !! env_file) as [n|] eqn:Hn;
    [| cbn [fst snd log app]; rewrite <- !app_assoc; reflexivity].
  cbn [fs log name]. rewrite !Hn.
  destruct (open_error n) as [e|];
    [cbn [fst snd log app]; rewrite <- !app_assoc; reflexivity|].
  cbn [fs log name]. rewrite !Hn.
  destruct (node_contents n) as [content|e];
    cbn [fst snd fs log name app]; rewrite <- !app_assoc; reflexivity.
Qed.

Lemma main_log_grows (fs0 : gmap pystr node) (l0 : list event) :
  (length l0 < length (log (snd (main (World fs0 l0)))))%nat.
Proof.
  rewrite main_appends. cbn [snd log]. rewrite length_app.
  assert (0 < length (log (snd (main (World fs0 [])))))%nat; [|lia].
  unfold main, bind, print, exists_, with_open, open_r, read, emit.
  cbn [fs log name].
  destruct (fs0 !! env_file) as [n|] eqn:Hn; [|cbn; lia].
  cbn [fs log name]. rewrite !Hn.
  destruct (open_error n) as [e|]; [cbn; lia|].
  cbn [fs log name]. rewrite !Hn.
  destruct (node_contents n) as [content|e]; cbn [snd log app length]; lia.
Qed.

Ltac absurd_in H :=
  exfalso; apply list_elem_of_In in H; vm_compute in H;
  repeat (destruct H as [H|H]; [discriminate H|]); exact H.

Lemma preview_inj (c1 c2 : pystr) :
  preview c1 = preview c2 -> take 100 c1 = take 100 c2.
Proof.
  unfold preview. intros H.
  apply app_inv_head in H. now apply app_inv_tail in H.
Qed.

Lemma success_trace_inj (c1 c2 : pystr) :
  success_trace c1 = success_trace c2 -> preview c1 = preview c2.
Proof.
  unfold success_trace. intros H. apply app_inv_head in H.
  cbn [app] in H. congruence.
Qed.



(** X2: every filesystem operation of a run is about the env file path
    and no other: in particular the project directory, although
    printed, is never looked at. *)
Theorem only_env_file_is_accessed (fs0 : gmap pystr node) :
  Forall (fun ev => forall path, event_path ev = Some path -> path = env_file)
         (trace fs0)
  /\ (forall ev, ev ∈ trace fs0 -> event_path ev <> Some project_dir).
Proof.
  assert (H : Forall (fun ev => forall path,
                        event_path ev = Some path -> path = env_file)
                     (trace fs0)).
  { unfold trace. rewrite script_cases.
    destruct (fs0 !! env_file) as [n|];
      [ destruct (open_error n) as [e|];
        [ | destruct (node_contents n) as [content|e] ] | ];
      cbn [final log];
      unfold success_trace, not_found_trace, open_failure_trace,
        read_failure_trace;
      cbn [app map banner instructions];
      repeat (constructor; [intros path Hp; cbv [event_path] in Hp; congruence|]);
      constructor. }
  split; [exact H|].
  intros ev Hev Hp. rewrite Forall_forall in H.
  specialize (H ev Hev _ Hp). vm_compute in H. discriminate H.
Qed.

(** X4: of a file that is read, only the first 100 characters reach the
    output: two runs on readable files perform the same operations and
    print the same lines exactly when the two contents agree on their
    first 100 characters. *)
Theorem output_depends_on_first_100
    (fs1 fs2 : gmap pystr node) (n1 n2 : node) (c1 c2 : pystr) :
  fs1 !! env_file = Some n1 -> readable_as n1 c1 ->
  fs2 !! env_file = Some n2 -> readable_as n2 c2 ->
  (trace fs1 = trace fs2 <-> take 100 c1 = take 100 c2)
  /\ (printed (trace fs1) = printed (trace fs2) <-> take 100 c1 = take 100 c2).
Proof.
  intros Hn1 Hr1 Hn2 Hr2. unfold trace.
  rewrite (trace_readable fs1 n1 c1 Hn1 Hr1), (trace_readable fs2 n2 c2 Hn2 Hr2).
  cbn [final log]. split; split.
  - intros H. now apply preview_inj, success_trace_inj.
  - intros H. unfold success_trace, preview. now rewrite H.
  - rewrite !printed_success. intros H.
    apply app_inv_head in H. cbn [app] in H.
    apply preview_inj. congruence.
  - intros H. rewrite !printed_success. unfold preview. now rewrite H.
Qed.

Lemma output_depends_on_first_100_witness :
  long_a <> long_b
  /\ (trace fs_long_a = trace fs_long_b <-> take 100 long_a = take 100 long_b)
  /\ (printed (trace fs_long_a) = printed (trace fs_long_b)
      <-> take 100 long_a = take 100 long_b)
  /\ trace fs_long_a = trace fs_long_b.
Proof.
  assert (Ha : fs_long_a !! env_file = Some (Regular true (Text long_a)))
    by (vm_compute; reflexivity).
  assert (Hb : fs_long_b !! env_file = Some (Regular true (Text long_b)))
    by (vm_compute; reflexivity).
  pose proof (output_depends_on_first_100 fs_long_a fs_long_b _ _ long_a long_b
                Ha (conj eq_refl eq_refl) Hb (conj eq_refl eq_refl)) as [H1 H2].
  split; [vm_compute; discriminate|].
  split; [exact H1|]. split; [exact H2|].
  apply H1. vm_compute. reflexivity.
Defined.

Lemma preview_length (content : pystr) :
  length (preview content) = (20 + min 100 (length content))%nat.
Proof.
  unfold preview. rewrite !length_app, length_take.
  change (length (lit "Content preview: ")) with 17%nat.
  change (length (lit "...")) with 3%nat. lia.
Qed.

(** X9: the module body touches nothing unless it runs as the main
    program: under any other [__name__] (an import) it prints nothing
    and performs no filesystem operation, under ["__main__"] it is
    [main], which always prints; in both cases the filesystem is left
    as it was. *)
Theorem module_runs_main_only_as_script (dunder_name : pystr) (w : world) :
  fs (snd (module_exec dunder_name w)) = fs w
  /\ (log (snd (module_exec dunder_name w)) = log w
      <-> dunder_name <> lit "__main__")
  /\ (dunder_name <> lit "__main__" -> module_exec dunder_name w = (Ok tt, w))
  /\ (dunder_name = lit "__main__" -> module_exec dunder_name w = main w).
Proof.
  unfold module_exec. destruct w as [fs0 l0].
  destruct (decide (dunder_name = lit "__main__")) as [E|E].
  - rewrite bool_decide_true by exact E.
    split; [apply main_preserves_fs|].
    split; [|split; [intros H; contradiction | reflexivity]].
    split; [|intros H; contradiction].
    intros H. pose proof (main_log_grows fs0 l0) as Hg.
    rewrite H in Hg. cbn [log] in Hg. lia.
  - rewrite bool_decide_false by exact E.
    split; [reflexivity|].
    split; [split; [intros _; exact E | reflexivity]|].
    split; [reflexivity | intros H; contradiction].
Qed.

(** ** The script where operations may wait *)

(** [main] is the body of the script over the runtime in which every
    operation comes back. *)
Lemma main_is_main_on : main = main_on M.
Proof. reflexivity. Qed.

(** What becomes of a run, by what is at the env file path. *)
Lemma w_script_cases (fs0 : gmap pystr entry) :
  w_script fs0 =
    match fs0 !! env_file with
    | None | Some Hidden => Ends 0 None not_found_trace
    | Some (Plain n) =>
        match open_error n with
        | Some e => Ends 1 (Some e) (open_failure_trace e)
        | None =>
            match node_contents n with
            | Text content => Ends 0 None (success_trace content)
            | Unreadable e => Ends 1 (Some e) (read_failure_trace e)
            end
        end
    | Some (Fifo true) => Waits open_waits_trace
    | Some (Endless true) => Waits read_waits_trace
    | Some (Fifo false) | Some (Endless false) =>
        Ends 1 (Some PermissionError) (open_failure_trace PermissionError)
    end.
Proof.
  unfold w_script, main_on.
  cbn [r_bind r_print r_exists r_with_open r_read waiting_runtime].
  unfold w_bind, w_print, w_exists, w_with_open, w_open, w_read, w_emit.
  cbn [wfs wlog name].
  destruct (fs0 !! env_file) as [[n|[]|[]|]|] eqn:He;
    cbn [visible wfs wlog name]; rewrite ?He; try reflexivity.
  - destruct (open_error n) as [e|]; [reflexivity|].
    cbn [wfs wlog name]. rewrite He.
    destruct (node_contents n) as [content|e]; [|reflexivity].
    cbn [wfs wlog name]. rewrite slice_to_100. reflexivity.
  - cbn [wfs wlog name]. rewrite He. reflexivity.
Qed.

(** On a filesystem of plain nodes the wider model gives the run of the
    narrower one. *)
Lemma w_script_plain (fs0 : gmap pystr node) :
  w_script (Plain <$> fs0)
  = Ends (status (script fs0)) (uncaught (script fs0)) (trace fs0).
Proof.
  unfold trace. rewrite w_script_cases, script_cases, lookup_fmap.
  destruct (fs0 !! env_file) as [n|]; [|reflexivity].
  cbn [fmap option_fmap option_map].
  destruct (open_error n) as [e|]; [reflexivity|].
  destruct (node_contents n); reflexivity.
Qed.

(** C9, as the claim words it, fails: with a named pipe that has no
    writer at the env file path, the run prints the success marker and
    then stays in [open] for ever; it never ends. *)
Lemma pipe_blocks_the_run :
  wfs_pipe !! env_file = Some (Fifo true)
  /\ w_script wfs_pipe
     = Waits (map Print banner
              ++ [ Exists env_file; Print found_line; Open env_file ])
  /\ ~ (exists st u l, w_script wfs_pipe = Ends st u l)
  /\ ~ (forall fs0 : gmap pystr entry,
          exists st u l, w_script fs0 = Ends st u l).
Proof.
  assert (He : wfs_pipe !! env_file = Some (Fifo true))
    by (vm_compute; reflexivity).
  assert (Hw : w_script wfs_pipe = Waits open_waits_trace)
    by (rewrite w_script_cases, He; reflexivity).
  split; [exact He|]. split; [exact Hw|]. split.
  - intros (st & u & l & H). rewrite Hw in H. discriminate H.
  - intros H. destruct (H wfs_pipe) as (st & u & l & H').
    rewrite Hw in H'. discriminate H'.
Qed.

(** C9, amended: on every filesystem where the entry at the env file
    path, if any, is not one on which [open] or [read] waits, the run
    ends, with status 0 or 1 and after at most sixteen operations: on
    the not-found path after the six of the failure report, on the found
    path after at least seven.  The script has no loop of its own. *)
Theorem terminates_unless_entry_waits (fs0 : gmap pystr entry) :
  (forall e, fs0 !! env_file = Some e -> waits e = false) ->
  exists st u l,
    w_script fs0 = Ends st u l
    /\ (st = 0%Z \/ st = 1%Z)
    /\ (length l <= 16)%nat
    /\ (fs0 !! env_file = None \/ fs0 !! env_file = Some Hidden ->
        st = 0%Z /\ l = not_found_trace)
    /\ ((exists e, fs0 !! env_file = Some e /\ visible e = true) ->
        (7 <= length l)%nat).
Proof.
  intros Hw. rewrite w_script_cases.
  destruct (fs0 !! env_file) as [[n|[]|[]|]|] eqn:He;
    try (specialize (Hw _ eq_refl); discriminate Hw); clear Hw.
  - destruct (open_error n) as [e|];
      [ | destruct (node_contents n) as [content|e] ];
      do 3 eexists; (split; [reflexivity|]);
      (split; [first [now left | now right]|]);
      (split; [cbn; lia|]);
      (split; [intros [H|H]; discriminate H | intros _; cbn; lia]).
  - do 3 eexists. split; [reflexivity|]. split; [now right|].
    split; [cbn; lia|].
    split; [intros [H|H]; discriminate H | intros _; cbn; lia].
  - do 3 eexists. split; [reflexivity|]. split; [now right|].
    split; [cbn; lia|].
    split; [intros [H|H]; discriminate H | intros _; cbn; lia].
  - do 3 eexists. split; [reflexivity|]. split; [now left|].
    split; [cbn; lia|]. split; [intros _; split; reflexivity|].
    intros (e & He' & Hv). injection He' as <-. discriminate Hv.
  - do 3 eexists. split; [reflexivity|]. split; [now left|].
    split; [cbn; lia|]. split; [intros _; split; reflexivity|].
    intros (e & He' & _). discriminate He'.
Qed.

Lemma terminates_unless_entry_waits_witness :
  (forall e, wfs_plain !! env_file = Some e -> waits e = false)
  /\ (forall e, wfs_absent !! env_file = Some e -> waits e = false)
  /\ (exists st u l, w_script wfs_plain = Ends st u l)
  /\ (exists st u l, w_script wfs_absent = Ends st u l).
Proof.
  assert (Hp : forall e, wfs_plain !! env_file = Some e -> waits e = false).
  { intros e He. vm_compute in He. injection He as <-. reflexivity. }
  assert (Ha : forall e, wfs_absent !! env_file = Some e -> waits e = false).
  { intros e He. vm_compute in He. discriminate He. }
  split; [exact Hp|]. split; [exact Ha|]. split.
  - destruct (terminates_unless_entry_waits wfs_plain Hp) as (st & u & l & H & _).
    exists st, u, l. exact H.
  - destruct (terminates_unless_entry_waits wfs_absent Ha) as (st & u & l & H & _).
    exists st, u, l. exact H.
Defined.

(** ** Further properties, continued *)

Lemma written_success (content : pystr) :
  length (written (success_trace content))
  = (498 + min 100 (length content))%nat.
Proof.
  unfold written. rewrite printed_success.
  cbn [flat_map app banner instructions].
  rewrite !length_app, preview_length.
  repeat match goal with
         | |- context [length ?l] =>
             lazymatch l with
             | content => fail
             | _ => let k := eval vm_compute in (length l) in
                    change (length l) with k
             end
         end.
  lia.
Qed.

(** X5: however large the file is, a run writes at most 598 characters
    to standard output, every newline included, and no [print] is given
    more than 120 characters; a run that reads content writes exactly
    498 + min(100, len(content)) characters. *)
Theorem written_size_bounded (fs0 : gmap pystr node) :
  (length (written (trace fs0)) <= 598)%nat
  /\ Forall (fun line => (length line <= 120)%nat) (printed (trace fs0))
  /\ (forall n content,
        fs0 !! env_file = Some n -> readable_as n content ->
        length (written (trace fs0)) = (498 + min 100 (length content))%nat).
Proof.
  unfold trace. rewrite script_cases.
  destruct (fs0 !! env_file) as [n|];
    [ destruct (open_error n) as [e|] eqn:Ho;
      [ | destruct (node_contents n) as [content|e] eqn:Hc ] | ];
    cbn [final log].
  - split; [vm_compute; lia|]. split.
    + repeat (constructor; [vm_compute; lia|]). constructor.
    + intros n' c' Hn' [Ho' _]. congruence.
  - split; [rewrite written_success; lia|]. split.
    + rewrite printed_success. cbn [app banner instructions].
      repeat (constructor; [first [rewrite preview_length; lia | vm_compute; lia]|]).
      constructor.
    + intros n' c' Hn' [_ Hc']. rewrite written_success. congruence.
  - split; [vm_compute; lia|]. split.
    + repeat (constructor; [vm_compute; lia|]). constructor.
    + intros n' c' Hn' [_ Hc']. congruence.
  - split; [vm_compute; lia|]. split.
    + repeat (constructor; [vm_compute; lia|]). constructor.
    + intros n' c' Hn' _. discriminate Hn'.
Qed.

Lemma found_line_in (l : list event) :
  Print found_line ∈ map Print banner ++ Exists env_file :: Print found_line :: l.
Proof.
  apply list_elem_of_In, in_or_app. right. right. left. reflexivity.
Qed.

Lemma found_line_not_in_report : Print found_line ∉ not_found_trace.
Proof. intros H. absurd_in H. Qed.

Lemma not_found_line_in_report : Print not_found_line ∈ not_found_trace.
Proof. unfold not_found_trace. in_list. Qed.

Lemma not_found_line_only_in_report (fs0 : gmap pystr entry) (e : entry) :
  fs0 !! env_file = Some e -> visible e = true ->
  Print not_found_line ∉ fate_log (w_script fs0).
Proof.
  intros He Hv H. rewrite w_script_cases, He in H.
  destruct e as [n|[]|[]|]; try discriminate Hv; cbn [fate_log] in H;
    [ destruct (open_error n) as [x|];
      [ | destruct (node_contents n) as [content|x] ]; cbn [fate_log] in H
    | .. ];
    absurd_in H.
Qed.

(** X6: the markers report what [os.path.exists] answered: the success
    marker is printed exactly when there is an entry at the env file
    path that [stat] reaches, whatever its kind and whether or not it
    can then be opened; the failure marker exactly when nothing is
    there or the entry is out of reach; no run prints both. *)
Theorem markers_report_the_check (fs0 : gmap pystr entry) :
  (Print found_line ∈ fate_log (w_script fs0)
   <-> exists e, fs0 !! env_file = Some e /\ visible e = true)
  /\ (Print not_found_line ∈ fate_log (w_script fs0)
      <-> fs0 !! env_file = None \/ fs0 !! env_file = Some Hidden)
  /\ ~ (Print found_line ∈ fate_log (w_script fs0)
        /\ Print not_found_line ∈ fate_log (w_script fs0)).
Proof.
  assert (Hf : Print found_line ∈ fate_log (w_script fs0)
               <-> exists e, fs0 !! env_file = Some e /\ visible e = true).
  { rewrite w_script_cases.
    destruct (fs0 !! env_file) as [[n|[]|[]|]|] eqn:He; cbn [fate_log].
    - split; [intros _; eexists; split; reflexivity|intros _].
      destruct (open_error n) as [x|];
        [ | destruct (node_contents n) as [content|x] ]; cbn [fate_log];
        apply found_line_in.
    - split; [intros _; eexists; split; reflexivity|intros _; apply found_line_in].
    - split; [intros _; eexists; split; reflexivity|intros _; apply found_line_in].
    - split; [intros _; eexists; split; reflexivity|intros _; apply found_line_in].
    - split; [intros _; eexists; split; reflexivity|intros _; apply found_line_in].
    - split; [intros H; now apply found_line_not_in_report in H|].
      intros (e & He' & Hv). injection He' as <-. discriminate Hv.
    - split; [intros H; now apply found_line_not_in_report in H|].
      intros (e & He' & _). discriminate He'. }
  assert (Hn : Print not_found_line ∈ fate_log (w_script fs0)
               <-> fs0 !! env_file = None \/ fs0 !! env_file = Some Hidden).
  { split.
    - intros H. destruct (fs0 !! env_file) as [e|] eqn:He; [|now left].
      destruct (visible e) eqn:Hv.
      + now apply (not_found_line_only_in_report fs0 e He Hv) in H.
      + destruct e; try discriminate Hv. now right.
    - intros [He|He]; rewrite w_script_cases, He; cbn [fate_log];
        apply not_found_line_in_report. }
  split; [exact Hf|]. split; [exact Hn|].
  intros [H1 H2]. apply Hf in H1 as (e & He & Hv).
  now apply (not_found_line_only_in_report fs0 e He Hv) in H2.
Qed.

(** X7: what becomes of a run is decided by the entry at the env file
    path.  The run waits for ever exactly when [open] or [read] waits on
    the entry; it ends with status 1 exactly when the entry is in reach
    and opening or reading it raises; it ends with status 0 exactly when
    nothing is there, the entry is out of reach, or the entry is read.
    A run that ends has status 0 and no error, or status 1 and one. *)
Theorem fate_characterised (fs0 : gmap pystr entry) :
  ((exists l, w_script fs0 = Waits l)
   <-> exists e, fs0 !! env_file = Some e /\ waits e = true)
  /\ ((exists u l, w_script fs0 = Ends 1 u l)
      <-> exists e x, fs0 !! env_file = Some e /\ raises e x)
  /\ ((exists u l, w_script fs0 = Ends 0 u l)
      <-> fs0 !! env_file = None
          \/ fs0 !! env_file = Some Hidden
          \/ exists n content,
               fs0 !! env_file = Some (Plain n) /\ readable_as n content)
  /\ (forall st u l, w_script fs0 = Ends st u l ->
        (st = 0%Z /\ u = None) \/ (st = 1%Z /\ is_Some u)).
Proof.
  rewrite w_script_cases. unfold readable_as.
  destruct (fs0 !! env_file) as [[n|[]|[]|]|] eqn:He.
  - unfold raises, fails_with.
    destruct (open_error n) as [x|] eqn:Ho;
      [ | destruct (node_contents n) as [content|x] eqn:Hc ].
    + split; [split; [intros [l H]; discriminate H
                     | intros (e & E & Hw); injection E as <-; discriminate Hw]|].
      split; [split; [intros _; exists (Plain n), x; auto|eauto]|].
      split; [split; [intros (u & l & H); discriminate H|]|].
      { intros [H|[H|(n' & c & E & Ho' & _)]]; congruence. }
      intros st u l H. injection H as <- <- _. right. eauto.
    + split; [split; [intros [l H]; discriminate H
                     | intros (e & E & Hw); injection E as <-; discriminate Hw]|].
      split; [split; [intros (u & l & H); discriminate H|]|].
      { intros (e & x & E & Hr). injection E as <-.
        destruct Hr as [Hr|[_ Hr]]; congruence. }
      split; [split; [intros _; right; right; exists n, content; auto|eauto]|].
      intros st u l H. injection H as <- <- _. left. eauto.
    + split; [split; [intros [l H]; discriminate H
                     | intros (e & E & Hw); injection E as <-; discriminate Hw]|].
      split; [split; [intros _; exists (Plain n), x; auto|eauto]|].
      split; [split; [intros (u & l & H); discriminate H|]|].
      { intros [H|[H|(n' & c & E & _ & Hc')]]; congruence. }
      intros st u l H. injection H as <- <- _. right. eauto.
  - split; [split; [intros _; exists (Fifo true); auto|eauto]|].
    split; [split; [intros (u & l & H); discriminate H|]|].
    { intros (e & x & E & Hr). injection E as <-. destruct Hr as [Hr _].
      discriminate Hr. }
    split; [split; [intros (u & l & H); discriminate H|]|].
    { intros [H|[H|(n' & c & E & _)]]; discriminate. }
    intros st u l H. discriminate H.
  - split; [split; [intros [l H]; discriminate H
                   | intros (e & E & Hw); injection E as <-; discriminate Hw]|].
    split; [split; [intros _; exists (Fifo false), PermissionError;
                    split; [reflexivity|split; reflexivity]|eauto]|].
    split; [split; [intros (u & l & H); discriminate H|]|].
    { intros [H|[H|(n' & c & E & _)]]; discriminate. }
    intros st u l H. injection H as <- <- _. right. eauto.
  - split; [split; [intros _; exists (Endless true); auto|eauto]|].
    split; [split; [intros (u & l & H); discriminate H|]|].
    { intros (e & x & E & Hr). injection E as <-. destruct Hr as [Hr _].
      discriminate Hr. }
    split; [split; [intros (u & l & H); discriminate H|]|].
    { intros [H|[H|(n' & c & E & _)]]; discriminate. }
    intros st u l H. discriminate H.
  - split; [split; [intros [l H]; discriminate H
                   | intros (e & E & Hw); injection E as <-; discriminate Hw]|].
    split; [split; [intros _; exists (Endless false), PermissionError;
                    split; [reflexivity|split; reflexivity]|eauto]|].
    split; [split; [intros (u & l & H); discriminate H|]|].
    { intros [H|[H|(n' & c & E & _)]]; discriminate. }
    intros st u l H. injection H as <- <- _. right. eauto.
  - split; [split; [intros [l H]; discriminate H
                   | intros (e & E & Hw); injection E as <-; discriminate Hw]|].
    split; [split; [intros (u & l & H); discriminate H|]|].
    { intros (e & x & E & Hr). injection E as <-. destruct Hr. }
    split; [split; [intros _; right; now left|eauto]|].
    intros st u l H. injection H as <- <- _. left. eauto.
  - split; [split; [intros [l H]; discriminate H
                   | intros (e & E & _); discriminate E]|].
    split; [split; [intros (u & l & H); discriminate H|]|].
    { intros (e & x & E & _). discriminate E. }
    split; [split; [intros _; now left|eauto]|].
    intros st u l H. injection H as <- <- _. left. eauto.
Qed.
